(** * SVGD on 2D Gaussian mixtures: the notebook [gaussian_mixes.ipynb]

    A shallow embedding of the notebook's code cells: the [GaussianMixture]
    class, the matplotlib driver ([contourData], [particlePlot], [animate]),
    the sampler [sampleInitialParticles] and the configuration cell.

    Tensors are flat row-major value lists tagged with a dtype and a shape.
    The scalar carrier is a parameter: the definitions run on rationals, the
    analytic statements are read on the reals, and the narrowing cast is
    replayed on IEEE binary formats. *)

From Stdlib Require Import List Arith Lia Bool ZArith QArith.
From Stdlib Require String.
Import String.StringSyntax.
Delimit Scope string_scope with string.
From Stdlib Require Import Reals Lra.
From Stdlib Require Import Floats.SpecFloat.
Import ListNotations.

Close Scope R_scope.
Close Scope Q_scope.
Close Scope Z_scope.
Open Scope nat_scope.

Set Implicit Arguments.

(** ** Tensors *)

Inductive DType : Type := float32 | float64.

Definition dtype_eqb (a b : DType) : bool :=
  match a, b with
  | float32, float32 | float64, float64 => true
  | _, _ => false
  end.

Record Tensor (F : Type) : Type := mkTensor {
  dtype : DType;
  shape : list nat;
  flat : list F
}.

Arguments mkTensor {F} _ _ _.

(** Number of entries of a tensor of the given shape. *)
Definition prod_shape (s : list nat) : nat := fold_right Nat.mul 1 s.

(** The last axis holds the coordinates of a point, the others index the batch. *)
Definition last_dim (s : list nat) : option nat :=
  match s with
  | [] => None
  | _ => Some (last s 0)
  end.

Definition batch_shape (s : list nat) : list nat := removelast s.

Definition shape_eqb (s t : list nat) : bool :=
  if list_eq_dec Nat.eq_dec s t then true else false.

(** The points of a batch tensor, in row-major order. *)
Definition points {F} (x : Tensor F) : list (list F) :=
  match last_dim (shape x) with
  | None => []
  | Some d =>
      map (fun k => firstn d (skipn (k * d) (flat x)))
          (seq 0 (prod_shape (batch_shape (shape x))))
  end.

Fixpoint zipWith {A B C} (f : A -> B -> C) (l : list A) (m : list B) : list C :=
  match l, m with
  | a :: l', b :: m' => f a b :: zipWith f l' m'
  | _, _ => []
  end.

(** Option-valued traversal: the first failure aborts the comprehension. *)
Fixpoint mapM {A B} (f : A -> option B) (l : list A) : option (list B) :=
  match l with
  | [] => Some []
  | a :: l' =>
      match f a with
      | None => None
      | Some b =>
          match mapM f l' with
          | None => None
          | Some bs => Some (b :: bs)
          end
      end
  end.

(** ** The scalar carrier and the external libraries *)

(** Scalar arithmetic of the tensor library: the operations are those of
    the dtype of the tensors they act on. [narrow] rounds a 64-bit value to
    the 32-bit format; [lit] reads a Python numeric literal, a 64-bit
    value. *)
Class Arith (F : Type) : Type := {
  f0 : F;
  fadd : DType -> F -> F -> F;
  fsub : DType -> F -> F -> F;
  fmul : DType -> F -> F -> F;
  narrow : F -> F;
  lit : Q -> F
}.

(** A Python number entering a tensor operation of dtype [dt]. *)
Definition convert {F} {A : Arith F} (dt : DType) (v : F) : F :=
  match dt with
  | float32 => narrow v
  | float64 => v
  end.

(** [tfp.distributions.MultivariateNormalTriL(loc, scale_tril)]. *)
Record MultivariateNormalTriL (F : Type) : Type := mkMVN {
  loc : list F;
  scale_tril : list (list F)
}.

Arguments mkMVN {F} _ _.

(** Functions of TensorFlow and TensorFlow Probability the notebook calls:
    [tf.linalg.cholesky] (fails on a matrix that has no factor), the density
    of a multivariate normal at one point, [tf.linspace], and the frames
    that matplotlib's [FuncAnimation] draws when an animation declared with
    [frames = n] is saved. *)
Class External (F : Type) : Type := {
  cholesky : list (list F) -> option (list (list F));
  mvn_density : MultivariateNormalTriL F -> list F -> F;
  linspace : F -> F -> nat -> Tensor F;
  frame_schedule : nat -> list nat
}.

Section Notebook.

Context {F : Type} {A : Arith F} {E : External F}.

(** [tf.cast(x, dt)]: identity on a tensor that already has dtype [dt];
    widening keeps every value, narrowing rounds every value. *)
Definition tf_cast (dt : DType) (x : Tensor F) : Tensor F :=
  match dtype x, dt with
  | float64, float32 => mkTensor float32 (shape x) (map narrow (flat x))
  | float32, float64 => mkTensor float64 (shape x) (flat x)
  | _, _ => x
  end.

(** [gaussian.prob(x)] for a distribution built from Python float lists (a
    float32 distribution): one density value per point of the batch. A
    tensor of another dtype, a scalar, or points of the wrong dimension are
    rejected. *)
Definition prob (g : MultivariateNormalTriL F) (x : Tensor F) : option (Tensor F) :=
  match dtype x, last_dim (shape x) with
  | float32, Some d =>
      if d =? length (loc g)
      then Some (mkTensor float32 (batch_shape (shape x)) (map (mvn_density g) (points x)))
      else None
  | _, _ => None
  end.

(** [c * t] for a Python float [c] and a tensor [t]. *)
Definition scale (c : F) (t : Tensor F) : Tensor F :=
  mkTensor (dtype t) (shape t) (map (fmul (dtype t) (convert (dtype t) c)) (flat t)).

Definition tensor_add (a b : Tensor F) : Tensor F :=
  mkTensor (dtype a) (shape a) (zipWith (fadd (dtype a)) (flat a) (flat b)).

(** [tf.reduce_sum(ts, axis = 0)] on a Python list of tensors: the list is
    stacked (all shapes must agree) and summed along the new first axis.
    The empty list stacks to a float32 tensor of shape [(0,)], whose sum is
    the scalar zero. *)
Definition reduce_sum0 (ts : list (Tensor F)) : option (Tensor F) :=
  match ts with
  | [] => Some (mkTensor float32 [] [f0])
  | t :: ts' =>
      if forallb (fun u => shape_eqb (shape u) (shape t)) ts'
      then Some (fold_left tensor_add ts' t)
      else None
  end.

(** *** class GaussianMixture *)

Record GaussianMixture : Type := mkGaussianMixture {
  gaussians : list (F * MultivariateNormalTriL F)
}.

Definition Component : Type := (F * list F * list (list F))%type.

(** [toGaussian(self, c, mean, Cov)]. The Python lists [mean] and [Cov]
    become float32 tensors. *)
Definition toGaussian (comp : Component) : option (F * MultivariateNormalTriL F) :=
  let '(c, mean, Cov) := comp in
  match cholesky (map (map narrow) Cov) with
  | Some scale_ => Some (c, mkMVN (map narrow mean) scale_)
  | None => None
  end.

(** [__init__(self, comps)] *)
Definition GaussianMixture_init (comps : list Component) : option GaussianMixture :=
  match mapM toGaussian comps with
  | Some gs => Some (mkGaussianMixture gs)
  | None => None
  end.

(** The tensor on which [pdf] evaluates the component densities. *)
Definition pdf_input (x : Tensor F) : Tensor F := tf_cast float32 x.

(** [pdf(self, x)] *)
Definition pdf (self : GaussianMixture) (x : Tensor F) : option (Tensor F) :=
  match mapM (fun cg : F * MultivariateNormalTriL F =>
                let '(c, gaussian) := cg in
                option_map (scale c) (prob gaussian (pdf_input x)))
             (gaussians self) with
  | Some ts => reduce_sum0 ts
  | None => None
  end.

(** Sum of a list of 32-bit values in list order; the empty sum is zero. *)
Definition fsum (l : list F) : F :=
  match l with
  | [] => f0
  | a :: l' => fold_left (fadd float32) l' a
  end.

(** The mixture density at one point: weight times component density, summed. *)
Definition mixture_density (gs : list (F * MultivariateNormalTriL F)) (p : list F) : F :=
  fsum (map (fun cg : F * MultivariateNormalTriL F =>
               fmul float32 (narrow (fst cg)) (mvn_density (snd cg) p)) gs).

(** *** Sampling the initial particles *)

(** The state of the random generator: the unit draws it will hand out, and
    how many were consumed. *)
Record RNG : Type := mkRNG {
  draws : nat -> F;
  pos : nat
}.

(** [tf.random.uniform(shape, minval, maxval, dtype)]: one fresh unit draw
    [u] per entry, mapped to [u * (maxval - minval) + minval]. *)
Definition random_uniform (shp : list nat) (minval maxval : F) (dt : DType) (g : RNG)
  : Tensor F * RNG :=
  let n := prod_shape shp in
  let lo := convert dt minval in
  let hi := convert dt maxval in
  (mkTensor dt shp
     (map (fun k => fadd dt (fmul dt (draws g (pos g + k)) (fsub dt hi lo)) lo) (seq 0 n)),
   mkRNG (draws g) (pos g + n)).

(** [sampleInitialParticles(shape, vrange)] *)
Definition sampleInitialParticles (shp : list nat) (vrange : F * F) (g : RNG) : Tensor F * RNG :=
  random_uniform shp (fst vrange) (snd vrange) float64 g.

(** *** The heap of tensor objects *)

Definition Ref : Type := nat.
Definition Heap : Type := list (Tensor F).

Definition alloc (h : Heap) (t : Tensor F) : Heap * Ref := (h ++ [t], length h).

Definition deref (h : Heap) (r : Ref) : option (Tensor F) := nth_error h r.

Fixpoint assign (h : Heap) (r : Ref) (t : Tensor F) : Heap :=
  match h, r with
  | [], _ => []
  | _ :: h', 0 => t :: h'
  | a :: h', S r' => a :: assign h' r' t
  end.

(** *** The SVGD object *)

(** [rbf = RbfKernel()] *)
Inductive KernelObj : Type := RbfKernel.

(** What the notebook uses of an object of class [SVGD]: the constructor
    arguments, the attribute [targetDistribution] and the method [update],
    which receives a reference to the particle variable and an iteration
    count, may write to the heap, and returns a reference. *)
Record SVGD : Type := mkSVGD {
  kernel : KernelObj;
  targetDistribution : Tensor F -> option (Tensor F);
  stepSize : F;
  update : Heap -> Ref -> nat -> Heap * Ref
}.

Definition UpdateMethod : Type :=
  KernelObj -> (Tensor F -> option (Tensor F)) -> F -> Heap -> Ref -> nat -> Heap * Ref.

(** [SVGD(kernel, targetDistribution, stepSize)] *)
Definition SVGD_init (method : UpdateMethod) (k : KernelObj)
  (target : Tensor F -> option (Tensor F)) (step_size : F) : SVGD :=
  mkSVGD k target step_size (method k target step_size).

(** Modelled from the spec: the method [SVGD.update], which is not part of
    the notebook. It runs [k] update iterations [step] on the particle set.
    The spec allows it to mutate the particle set in place: the result is
    written into the caller's variable, which is returned. *)
Definition update_in_place (step : Tensor F -> Tensor F) (h : Heap) (x : Ref) (k : nat)
  : Heap * Ref :=
  match deref h x with
  | Some t => (assign h x (Nat.iter k step t), x)
  | None => (h, x)
  end.

(** Modelled from the spec: the method [SVGD.update], which is not part of
    the notebook. It runs [k] update iterations [step] on the particle set.
    The spec allows it to replace the particle set: the caller's variable is
    left as it was and a new particle set is returned. *)
Definition update_replacing (step : Tensor F -> Tensor F) (h : Heap) (x : Ref) (k : nat)
  : Heap * Ref :=
  match deref h x with
  | Some t => alloc h (Nat.iter k step t)
  | None => (h, x)
  end.

(** *** The plotting driver *)

(** [contourData(fn, xrange, yrange)]: the target on a 200 x 200 grid. *)
Definition contourData (fn : Tensor F -> option (Tensor F)) (xrange yrange : F * F)
  : Tensor F * Tensor F * option (Tensor F) :=
  let xs := linspace (fst xrange) (snd xrange) 200 in
  let ys := linspace (fst yrange) (snd yrange) 200 in
  let sh := [length (flat ys); length (flat xs)] in
  let x := mkTensor (dtype xs) sh (concat (map (fun _ => flat xs) (flat ys))) in
  let y := mkTensor (dtype ys) sh
             (concat (map (fun yi => map (fun _ => yi) (flat xs)) (flat ys))) in
  let grid := mkTensor (dtype xs) (sh ++ [2])
                (concat (map (fun yi => concat (map (fun xj => [xj; yi]) (flat xs))) (flat ys))) in
  (x, y, fn grid).

(** A call made to [svgd.update]: the reference passed, the particle set
    found behind it when the call starts, and the iteration count. *)
Record Call : Type := mkCall {
  call_ref : Ref;
  call_start : option (Tensor F);
  call_count : nat
}.

(** What the driver leaves behind: the heap, the contour data, the offsets
    shown by the scatter plot, the file written, and a log of the calls
    made to [svgd.update]. *)
Record Plot : Type := mkPlot {
  heap : Heap;
  contour : option (Tensor F * Tensor F * option (Tensor F));
  offsets : option (Tensor F);
  saved : option String.string;
  calls : list Call
}.

(** [animate(_, x)], the closure inside [particlePlot]. The assignment to
    [x] rebinds the closure's own parameter only. *)
Definition animate (svgd : SVGD) (frame : nat) (x : Ref) (w : Plot) : Plot :=
  let '(h', x') := update svgd (heap w) x 5 in
  mkPlot h' (contour w) (deref h' x') (saved w)
    (calls w ++ [mkCall x (deref (heap w) x) 5]).

(** Drawing the frames of [FuncAnimation(figure, animate, fargs = (x,))]:
    every frame calls [animate(frame, *fargs)]. *)
Definition draw_frames (svgd : SVGD) (fargs : Ref) (schedule : list nat) (w : Plot) : Plot :=
  fold_left (fun w' frame => animate svgd frame fargs w') schedule w.

(** [particlePlot(svgd, initialParticles, xrange, yrange, saveAnimationTo)] *)
Definition particlePlot (svgd : SVGD) (initialParticles : Tensor F)
  (xrange yrange : F * F) (saveAnimationTo : option String.string) (h : Heap) : Plot :=
  let data := contourData (targetDistribution svgd) xrange yrange in
  let '(h1, x) := alloc h initialParticles in
  let w := mkPlot h1 (Some data) (deref h1 x) None [] in
  match saveAnimationTo with
  | Some path =>
      let w' := draw_frames svgd x (frame_schedule 100) w in
      mkPlot (heap w') (contour w') (offsets w') (Some path) (calls w')
  | None => w
  end.

(** *** The configuration cell *)

Definition cov : list (list F) :=
  [[lit (9 # 10); lit (1 # 10)];
   [lit (1 # 10); lit (9 # 10)]].

Definition gauss_comps : list Component :=
  [(lit (3 # 10), [lit (-4 # 1); lit 0], cov);
   (lit (7 # 10), [lit 1; lit 0], cov);
   (lit (7 # 10), [lit 4; lit 4], cov)].

Definition gauss : option GaussianMixture := GaussianMixture_init gauss_comps.

Definition valueRange : F * F := (lit (-7 # 1), lit 7).

Definition x0 (g : RNG) : Tensor F * RNG := sampleInitialParticles [200; 2] valueRange g.

Definition rbf : KernelObj := RbfKernel.

Definition svgd (method : UpdateMethod) (gm : GaussianMixture) : SVGD :=
  SVGD_init method rbf (pdf gm) (lit (1 # 10)).

(** The whole cell, from the generator state and the empty heap. *)
Definition notebook (method : UpdateMethod) (g : RNG) : option (Plot * RNG) :=
  match gauss with
  | None => None
  | Some gm =>
      let '(particles, g') := x0 g in
      Some (particlePlot (svgd method gm) particles valueRange valueRange
              (Some "media/animation.mp4"%string) [],
            g')
  end.

End Notebook.

(** ** Carriers *)

(** Exact rational arithmetic, on which the definitions run: both dtypes
    hold every rational, so narrowing loses nothing. *)
#[export] Instance Q_arith : Arith Q := {|
  f0 := 0%Q;
  fadd := fun _ a b => Qred (a + b)%Q;
  fsub := fun _ a b => Qred (a - b)%Q;
  fmul := fun _ a b => Qred (a * b)%Q;
  narrow := fun q => q;
  lit := fun q => Qred q
|}.


(** IEEE 754 binary32 and binary64, round to nearest even. *)
Definition prec_of (dt : DType) : Z :=
  match dt with float32 => 24%Z | float64 => 53%Z end.

Definition emax_of (dt : DType) : Z :=
  match dt with float32 => 128%Z | float64 => 1024%Z end.

Definition SF_narrow (x : spec_float) : spec_float :=
  match x with
  | S754_finite s m e => binary_round 24 128 s m e
  | _ => x
  end.

(** A decimal literal [n / d] with small [n] and [d]: the binary64 value
    nearest to the quotient. *)
Definition SF_lit (q : Q) : spec_float :=
  SFdiv 53 1024 (binary_normalize 53 1024 (Qnum q) 0 false)
                (binary_normalize 53 1024 (Zpos (Qden q)) 0 false).

#[export] Instance IEEE_arith : Arith spec_float := {|
  f0 := S754_zero false;
  fadd := fun dt => SFadd (prec_of dt) (emax_of dt);
  fsub := fun dt => SFsub (prec_of dt) (emax_of dt);
  fmul := fun dt => SFmul (prec_of dt) (emax_of dt);
  narrow := SF_narrow;
  lit := SF_lit
|}.

(** A rational stand-in for the external libraries, to run the notebook's
    functions on concrete inputs: every matrix is its own factor, the
    density is [1 / (1 + |p - loc|^2)], and every frame is drawn once. *)
Definition Q_density (g : MultivariateNormalTriL Q) (p : list Q) : Q :=
  Qred (/ (1 + fold_right Qplus 0 (zipWith (fun a b => (a - b) * (a - b)) p (loc g))))%Q.

Definition Q_linspace (lo hi : Q) (n : nat) : Tensor Q :=
  mkTensor float64 [n]
    (map (fun k => Qred (lo + inject_Z (Z.of_nat k) * (hi - lo) / inject_Z (Z.of_nat (n - 1)))%Q)
         (seq 0 n)).

Definition Q_external : External Q := {|
  cholesky := fun m => Some m;
  mvn_density := Q_density;
  linspace := Q_linspace;
  frame_schedule := fun n => seq 0 n
|}.

(** ** The RBF kernel component *)

Module Kernel.

Local Open Scope R_scope.

Definition ParticleSet : Type := list (list R).


(** Modelled from the spec: the squared distance between two particles,
    which the package [svgd.kernels] computes outside the notebook. *)
Definition sqdist (x y : list R) : R :=
  fold_right Rplus 0 (zipWith (fun a b => (a - b) * (a - b)) x y).

(** Modelled from the spec: the pairwise squared distances of the batch,
    taken over all ordered pairs of particles. *)
Definition pairwise_sqdist (X : ParticleSet) : list R :=
  flat_map (fun xi => map (sqdist xi) X) X.

Fixpoint insert (a : R) (l : list R) : list R :=
  match l with
  | [] => [a]
  | b :: l' => if Rle_dec a b then a :: l else b :: insert a l'
  end.

Definition sort (l : list R) : list R := fold_right insert [] l.

(** Modelled from the spec: the median of the median heuristic, the middle
    of the sorted values (the mean of the two middle ones for an even
    count). *)
Definition median (l : list R) : R :=
  let s := sort l in
  let n := length s in
  if Nat.even n
  then (nth (n / 2 - 1) s 0 + nth (n / 2) s 0) / 2
  else nth (n / 2) s 0.





End Kernel.

(** ** Facts about lists and traversals *)

Lemma zipWith_map {A B C D} (f : B -> C -> D) (a : A -> B) (b : A -> C) (l : list A) :
  zipWith f (map a l) (map b l) = map (fun p => f (a p) (b p)) l.
Proof.
  induction l as [|p l IH]; simpl; [reflexivity|].
  now rewrite IH.
Qed.

Lemma mapM_Forall2 {A B} (f : A -> option B) (l : list A) (bs : list B) :
  mapM f l = Some bs -> Forall2 (fun a b => f a = Some b) l bs.
Proof.
  revert bs. induction l as [|a l IH]; simpl; intros bs H.
  - injection H as <-. constructor.
  - destruct (f a) as [b|] eqn:Hfa; [|discriminate].
    destruct (mapM f l) as [bs'|]; [|discriminate].
    injection H as <-. constructor; [assumption|]. now apply IH.
Qed.

Lemma mapM_total {A B} (f : A -> option B) (g : A -> B) (l : list A) :
  Forall (fun a => f a = Some (g a)) l -> mapM f l = Some (map g l).
Proof.
  induction 1 as [|a l Ha _ IH]; simpl; [reflexivity|].
  now rewrite Ha, IH.
Qed.

Lemma mapM_length {A B} (f : A -> option B) (l : list A) (bs : list B) :
  mapM f l = Some bs -> length bs = length l.
Proof.
  intros H. apply mapM_Forall2 in H.
  induction H; simpl; congruence.
Qed.

Lemma shape_eqb_refl (s : list nat) : shape_eqb s s = true.
Proof.
  unfold shape_eqb. destruct (list_eq_dec Nat.eq_dec s s); congruence.
Qed.

(** ** The mixture density *)

Section MixtureFacts.

Context {F : Type} {A : Arith F} {E : External F}.

Lemma tf_cast_float32_dtype (x : Tensor F) : dtype (tf_cast float32 x) = float32.
Proof.
  unfold tf_cast. destruct (dtype x) eqn:Hd; simpl; [assumption|reflexivity].
Qed.

Lemma tf_cast_shape (dt : DType) (x : Tensor F) : shape (tf_cast dt x) = shape x.
Proof.
  unfold tf_cast. destruct (dtype x), dt; reflexivity.
Qed.

(** What the constructor stores for one component. *)
Definition stored (comp : Component) (cg : F * MultivariateNormalTriL F) : Prop :=
  fst cg = fst (fst comp) /\
  loc (snd cg) = map narrow (snd (fst comp)) /\
  cholesky (map (map narrow) (snd comp)) = Some (scale_tril (snd cg)).

Lemma toGaussian_stored (comp : Component) (cg : F * MultivariateNormalTriL F) :
  toGaussian comp = Some cg -> stored comp cg.
Proof.
  destruct comp as [[c mean] Cov]. unfold toGaussian, stored.
  destruct (cholesky (map (map narrow) Cov)) as [L|] eqn:HL; [|discriminate].
  intros H. injection H as <-. simpl. auto.
Qed.

Lemma init_stored (comps : list Component) (gm : GaussianMixture) :
  GaussianMixture_init comps = Some gm -> Forall2 stored comps (gaussians gm).
Proof.
  unfold GaussianMixture_init.
  destruct (mapM toGaussian comps) as [gs|] eqn:Hm; [|discriminate].
  intros H. injection H as <-. simpl.
  apply mapM_Forall2 in Hm.
  induction Hm; constructor; auto using toGaussian_stored.
Qed.

(** The term of one component in the list that [pdf] sums. *)
Definition term (x : Tensor F) (cg : F * MultivariateNormalTriL F) : Tensor F :=
  mkTensor float32 (batch_shape (shape x))
    (map (fun p => fmul float32 (narrow (fst cg)) (mvn_density (snd cg) p))
         (points (pdf_input x))).

Lemma prob_term (x : Tensor F) (d : nat) (cg : F * MultivariateNormalTriL F) :
  last_dim (shape x) = Some d ->
  length (loc (snd cg)) = d ->
  (let '(c, gaussian) := cg in option_map (scale c) (prob gaussian (pdf_input x)))
  = Some (term x cg).
Proof.
  intros Hd Hl. destruct cg as [c g]. simpl in Hl.
  unfold prob, pdf_input. rewrite tf_cast_float32_dtype, tf_cast_shape, Hd, Hl, Nat.eqb_refl.
  unfold term, scale, pdf_input. simpl. now rewrite map_map.
Qed.

Lemma fold_terms (x : Tensor F) (gs : list (F * MultivariateNormalTriL F))
  (acc : list F -> F) :
  fold_left tensor_add (map (term x) gs)
    (mkTensor float32 (batch_shape (shape x)) (map acc (points (pdf_input x))))
  = mkTensor float32 (batch_shape (shape x))
      (map (fun p =>
              fold_left (fadd float32)
                (map (fun cg : F * MultivariateNormalTriL F =>
                        fmul float32 (narrow (fst cg)) (mvn_density (snd cg) p)) gs)
                (acc p))
           (points (pdf_input x))).
Proof.
  revert acc. induction gs as [|cg gs IH]; intros acc; simpl; [reflexivity|].
  unfold tensor_add at 2. simpl. rewrite zipWith_map. now rewrite IH.
Qed.

Lemma reduce_terms (x : Tensor F) (gs : list (F * MultivariateNormalTriL F)) :
  gs <> [] ->
  reduce_sum0 (map (term x) gs)
  = Some (mkTensor float32 (batch_shape (shape x))
            (map (mixture_density gs) (points (pdf_input x)))).
Proof.
  destruct gs as [|cg gs]; [congruence|]. intros _. simpl.
  replace (forallb _ _) with true.
  - unfold term at 2. rewrite fold_terms. reflexivity.
  - symmetry. apply forallb_forall. intros u Hu.
    apply in_map_iff in Hu as [cg' [<- _]]. apply shape_eqb_refl.
Qed.

(** C1. For a mixture constructed from a non-empty list of
    (weight, mean, covariance) components, each stored as the weight with
    the normal distribution of that mean and of the Cholesky factor of that
    covariance, and for a batch of points of the components' dimension,
    [pdf] returns one value per point: the sum over the components of the
    weight times the component's density at the point (as [pdf] reads it,
    in 32-bit precision). *)
Theorem pdf_weighted_sum (comps : list Component) (gm : GaussianMixture)
  (x : Tensor F) (d : nat) :
  GaussianMixture_init comps = Some gm ->
  comps <> [] ->
  last_dim (shape x) = Some d ->
  Forall (fun comp : Component => length (snd (fst comp)) = d) comps ->
  Forall2 stored comps (gaussians gm) /\
  pdf gm x = Some (mkTensor float32 (batch_shape (shape x))
                     (map (mixture_density (gaussians gm)) (points (pdf_input x)))).
Proof.
  intros Hinit Hne Hd Hdim.
  pose proof (init_stored _ Hinit) as Hst.
  split; [exact Hst|].
  assert (Hlen : Forall (fun cg : F * MultivariateNormalTriL F => length (loc (snd cg)) = d)
                   (gaussians gm)).
  { clear Hinit Hne. induction Hst as [|comp cg comps' gs' H1 _ IH]; constructor.
    - destruct H1 as (_ & Hloc & _). rewrite Hloc, length_map.
      now inversion Hdim.
    - apply IH. now inversion Hdim. }
  unfold pdf.
  rewrite (mapM_total _ (term x)).
  - apply reduce_terms. intros Hnil. rewrite Hnil in Hst. inversion Hst. congruence.
  - eapply Forall_impl; [|exact Hlen]. intros cg Hcg. now apply prob_term with (d := d).
Qed.

End MixtureFacts.

(** ** Sign of the mixture density *)

Section Nonnegative.

Context {F : Type} {A : Arith F} {E : External F}.

(** The order of the carrier, and what is used of it: zero is nonnegative,
    32-bit sums and products of nonnegative values are nonnegative, so is a
    narrowed nonnegative value, and so is every value of a density. *)
Variable le : F -> F -> Prop.
Hypothesis le_zero : le f0 f0.
Hypothesis add_nonneg : forall a b, le f0 a -> le f0 b -> le f0 (fadd float32 a b).
Hypothesis mul_nonneg : forall a b, le f0 a -> le f0 b -> le f0 (fmul float32 a b).
Hypothesis narrow_nonneg : forall a, le f0 a -> le f0 (narrow a).
Hypothesis density_nonneg : forall g p, le f0 (mvn_density g p).









End Nonnegative.

(** ** The configured target and the precision of the density *)

Section ConfigFacts.

Context {F : Type} {A : Arith F} {E : External F}.

(** Weight and centre of every component of a mixture. *)
Definition components (gm : GaussianMixture) : list (F * list F) :=
  map (fun cg : F * MultivariateNormalTriL F => (fst cg, loc (snd cg))) (gaussians gm).

(** The target as the scenario describes it: two components, weights 0.3
    and 0.7, centred at (-4, 0) and (4, 4). *)
Definition two_component_target : Prop :=
  forall gm, gauss = Some gm ->
    components gm =
      [(lit (3 # 10), map narrow [lit (-4 # 1); lit 0]);
       (lit (7 # 10), map narrow [lit 4; lit 4])].

(** C2, as the code has it. The configured target consists of exactly three
    components, with weights 0.3, 0.7 and 0.7, centred at (-4, 0), (1, 0)
    and (4, 4) respectively. *)
Theorem gauss_three_components (gm : GaussianMixture) :
  gauss = Some gm ->
  length (gaussians gm) = 3 /\
  components gm =
    [(lit (3 # 10), map narrow [lit (-4 # 1); lit 0]);
     (lit (7 # 10), map narrow [lit 1; lit 0]);
     (lit (7 # 10), map narrow [lit 4; lit 4])].
Proof.
  intros H. apply init_stored in H. unfold components.
  destruct (gaussians gm) as [|cg1 [|cg2 [|cg3 [|cg4 gs]]]];
    unfold gauss_comps in H;
    repeat match goal with
           | H : Forall2 _ _ _ |- _ => inversion H; subst; clear H
           end.
  repeat match goal with
         | H : stored _ _ |- _ => destruct H as (? & ? & _)
         end.
  simpl in *. split; [reflexivity|]. congruence.
Qed.



End ConfigFacts.

(** ** The driver loop *)

Section DriverFacts.

Context {F : Type} {A : Arith F} {E : External F}.

(** Reference and iteration count of every logged call. *)
Definition call_args (w : @Plot F) : list (Ref * nat) :=
  map (fun c => (call_ref c, call_count c)) (calls w).


Lemma animate_calls (svgd : @SVGD F) (frame : nat) (x : Ref) (w : @Plot F) :
  calls (animate svgd frame x w) = calls w ++ [mkCall x (deref (heap w) x) 5].
Proof.
  unfold animate. destruct (update svgd (heap w) x 5) as [h' x']. reflexivity.
Qed.

Lemma draw_frames_app (svgd : @SVGD F) (x : Ref) (s1 s2 : list nat) (w : @Plot F) :
  draw_frames svgd x (s1 ++ s2) w = draw_frames svgd x s2 (draw_frames svgd x s1 w).
Proof.
  unfold draw_frames. apply fold_left_app.
Qed.

Lemma draw_frames_call_args (svgd : @SVGD F) (x : Ref) (schedule : list nat) (w : @Plot F) :
  call_args (draw_frames svgd x schedule w)
  = call_args w ++ repeat (x, 5) (length schedule).
Proof.
  unfold draw_frames, call_args. revert w.
  induction schedule as [|frame schedule IH]; intros w; simpl.
  - now rewrite app_nil_r.
  - rewrite IH, animate_calls, map_app, <- app_assoc. reflexivity.
Qed.

Lemma animate_heap (svgd : @SVGD F) (frame : nat) (x : Ref) (w : @Plot F) :
  heap (animate svgd frame x w) = fst (update svgd (heap w) x 5) /\
  offsets (animate svgd frame x w)
  = deref (fst (update svgd (heap w) x 5)) (snd (update svgd (heap w) x 5)).
Proof.
  unfold animate. destruct (update svgd (heap w) x 5) as [h' x']. split; reflexivity.
Qed.

Lemma particlePlot_call_args (svgd : @SVGD F) (initialParticles : Tensor F)
  (xrange yrange : F * F) (path : String.string) (h : @Heap F) :
  call_args (particlePlot svgd initialParticles xrange yrange (Some path) h)
  = repeat (length h, 5) (length (frame_schedule 100)).
Proof.
  unfold particlePlot, alloc.
  change (call_args (mkPlot ?a ?b ?c ?d (calls ?w))) with (call_args w).
  now rewrite draw_frames_call_args.
Qed.

(** C4. Every animation frame makes exactly one call to [svgd.update], on
    the particle variable and with iteration count 5: one call of [animate]
    adds one such entry to the call log and leaves the heap that this call
    produced, and a run of the driver makes one such call per frame drawn,
    all on the variable created from the initial particles. *)
Theorem animate_one_update_of_5 (svgd : @SVGD F) (frame : nat) (x : Ref) (w : @Plot F)
  (schedule : list nat) (initialParticles : Tensor F) (xrange yrange : F * F)
  (path : String.string) (h : @Heap F) :
  calls (animate svgd frame x w) = calls w ++ [mkCall x (deref (heap w) x) 5] /\
  heap (animate svgd frame x w) = fst (update svgd (heap w) x 5) /\
  call_args (draw_frames svgd x schedule w)
  = call_args w ++ repeat (x, 5) (length schedule) /\
  call_args (particlePlot svgd initialParticles xrange yrange (Some path) h)
  = repeat (length h, 5) (length (frame_schedule 100)).
Proof.
  split; [apply animate_calls|].
  split; [apply animate_heap|].
  split; [apply draw_frames_call_args|].
  apply particlePlot_call_args.
Qed.









End DriverFacts.

(** ** Randomness *)

Section Operations.

Context {F : Type} {A : Arith F} {E : External F}.

(** The operations that the notebook defines, with their arguments. *)
Inductive Op : Type :=
| op_toGaussian (comp : @Component F)
| op_GaussianMixture (comps : list (@Component F))
| op_pdf (self : @GaussianMixture F) (x : Tensor F)
| op_contourData (fn : Tensor F -> option (Tensor F)) (xrange yrange : F * F)
| op_animate (svgd : @SVGD F) (frame : nat) (x : Ref) (w : @Plot F)
| op_particlePlot (svgd : @SVGD F) (initialParticles : Tensor F) (xrange yrange : F * F)
    (saveAnimationTo : option String.string) (h : @Heap F)
| op_sampleInitialParticles (shp : list nat) (vrange : F * F).

Inductive Result : Type :=
| res_gaussian (r : option (F * MultivariateNormalTriL F))
| res_mixture (r : option (@GaussianMixture F))
| res_tensor (r : option (Tensor F))
| res_contour (r : Tensor F * Tensor F * option (Tensor F))
| res_plot (r : @Plot F).

(** Running an operation from a state of the random generator. *)
Definition exec (op : Op) (g : @RNG F) : Result * @RNG F :=
  match op with
  | op_toGaussian comp => (res_gaussian (toGaussian comp), g)
  | op_GaussianMixture comps => (res_mixture (GaussianMixture_init comps), g)
  | op_pdf self x => (res_tensor (pdf self x), g)
  | op_contourData fn xrange yrange => (res_contour (contourData fn xrange yrange), g)
  | op_animate svgd frame x w => (res_plot (animate svgd frame x w), g)
  | op_particlePlot svgd initialParticles xrange yrange saveAnimationTo h =>
      (res_plot (particlePlot svgd initialParticles xrange yrange saveAnimationTo h), g)
  | op_sampleInitialParticles shp vrange =>
      let '(t, g') := sampleInitialParticles shp vrange g in (res_tensor (Some t), g')
  end.

Definition is_sampler (op : Op) : bool :=
  match op with
  | op_sampleInitialParticles _ _ => true
  | _ => false
  end.

(** An operation is deterministic when its result does not depend on the
    state of the generator, which it leaves as it found it. *)
Definition deterministic (op : Op) : Prop :=
  forall g1 g2, fst (exec op g1) = fst (exec op g2) /\ snd (exec op g1) = g1.

(** An operation is randomized when two states of the generator give two
    different results. *)
Definition randomized (op : Op) : Prop :=
  exists g1 g2, fst (exec op g1) <> fst (exec op g2).

Lemma not_sampler_deterministic (op : Op) : is_sampler op = false -> deterministic op.
Proof.
  destruct op; simpl; intros H g1 g2; try discriminate; split; reflexivity.
Qed.

Lemma randomized_not_deterministic (op : Op) : randomized op -> ~ deterministic op.
Proof.
  intros (g1 & g2 & Hne) Hdet. apply Hne. apply Hdet.
Qed.

Lemma randomized_is_sampler (op : Op) : randomized op -> is_sampler op = true.
Proof.
  intros Hr. destruct (is_sampler op) eqn:Hs; [reflexivity|].
  exfalso. now apply (randomized_not_deterministic Hr), not_sampler_deterministic.
Qed.

End Operations.

(** ** The sampler *)





(** ** The RBF kernel matrix *)

Module KernelFacts.

Import Kernel.
Local Open Scope R_scope.


Lemma sqdist_nonneg (x y : list R) : 0 <= sqdist x y.
Proof.
  unfold sqdist. revert y.
  induction x as [|a x IH]; intros [|b y]; simpl; try lra.
  specialize (IH y). pose proof (Rle_0_sqr (a - b)) as Hsq. unfold Rsqr in Hsq. lra.
Qed.


Lemma insert_In (a v : R) (l : list R) : In v (insert a l) -> v = a \/ In v l.
Proof.
  induction l as [|b l IH]; simpl.
  - intros [H|[]]. now left.
  - destruct (Rle_dec a b); simpl.
    + intros [H|H]; [now left|now right].
    + intros [H|H]; [right; now left|].
      destruct (IH H) as [H'|H']; [now left|right; now right].
Qed.

Lemma sort_In (v : R) (l : list R) : In v (sort l) -> In v l.
Proof.
  unfold sort. induction l as [|a l IH]; simpl; [auto|].
  intros H. apply insert_In in H as [H|H]; [now left|right; now apply IH].
Qed.

Lemma nth_nonneg (s : list R) (i : nat) : Forall (Rle 0) s -> 0 <= nth i s 0.
Proof.
  intros H. destruct (nth_in_or_default i s 0) as [Hin | ->]; [|lra].
  rewrite Forall_forall in H. now apply H.
Qed.

Lemma median_nonneg (l : list R) : Forall (Rle 0) l -> 0 <= median l.
Proof.
  intros H.
  assert (Hs : Forall (Rle 0) (sort l)).
  { apply Forall_forall. intros v Hv. rewrite Forall_forall in H.
    now apply H, sort_In. }
  unfold median. cbn zeta.
  destruct (Nat.even (length (sort l))).
  - pose proof (nth_nonneg (length (sort l) / 2 - 1) Hs).
    pose proof (nth_nonneg (length (sort l) / 2) Hs). lra.
  - now apply nth_nonneg.
Qed.

Lemma pairwise_sqdist_nonneg (X : ParticleSet) : Forall (Rle 0) (pairwise_sqdist X).
Proof.
  apply Forall_forall. intros v Hv. unfold pairwise_sqdist in Hv.
  apply in_flat_map in Hv as (xi & _ & Hv).
  apply in_map_iff in Hv as (xj & <- & _). apply sqdist_nonneg.
Qed.









End KernelFacts.

(** ** The notebook on concrete inputs *)

(** The configured mixture on the rational carrier. *)
Definition gauss_Q : @GaussianMixture Q :=
  Eval vm_compute in
    match @gauss Q Q_arith Q_external with
    | Some gm => gm
    | None => mkGaussianMixture []
    end.

(** Two points, (0, 0) and (1, 1), as a 64-bit batch. *)
Definition demo_batch : Tensor Q := mkTensor float64 [2; 2] [0%Q; 0%Q; 1%Q; 1%Q].

Example gauss_Q_constructed : @gauss Q Q_arith Q_external = Some gauss_Q.
Proof. reflexivity. Qed.

Example pdf_demo_batch :
  @pdf Q Q_arith Q_external gauss_Q demo_batch
  = Some (mkTensor float32 [2] [(4363 # 11220)%Q; (1361 # 3420)%Q]).
Proof. reflexivity. Qed.

Lemma pdf_weighted_sum_witness :
  Forall2 (@stored Q Q_arith Q_external) gauss_comps (gaussians gauss_Q) /\
  @pdf Q Q_arith Q_external gauss_Q demo_batch
  = Some (mkTensor float32 (batch_shape (shape demo_batch))
            (map (@mixture_density Q Q_arith Q_external (gaussians gauss_Q))
                 (points (pdf_input demo_batch)))).
Proof.
  apply (@pdf_weighted_sum Q Q_arith Q_external gauss_comps gauss_Q demo_batch 2).
  - reflexivity.
  - discriminate.
  - reflexivity.
  - repeat constructor.
Defined.

Lemma gauss_three_components_witness :
  length (gaussians gauss_Q) = 3 /\
  @components Q gauss_Q =
    [((3 # 10)%Q, [(-4 # 1)%Q; 0%Q]); ((7 # 10)%Q, [1%Q; 0%Q]); ((7 # 10)%Q, [4%Q; 4%Q])].
Proof.
  apply (@gauss_three_components Q Q_arith Q_external gauss_Q). reflexivity.
Defined.

(** C2, as the scenario states it, fails on the configuration cell: the
    configured mixture has a third component, of weight 0.7 at (1, 0). *)
Lemma gauss_not_two_components : ~ @two_component_target Q Q_arith Q_external.
Proof.
  intros H. specialize (H gauss_Q eq_refl). vm_compute in H. discriminate H.
Qed.






(** One particle, sampled in binary64 from the configured value range with
    the unit draw nearest to 0.1. *)
Definition demo_particles : Tensor spec_float :=
  fst (sampleInitialParticles [1; 2] (@valueRange spec_float IEEE_arith)
         (mkRNG (fun _ => SF_lit (1 # 10)) 0)).

Example demo_particles_value :
  demo_particles
  = mkTensor float64 [1; 2]
      [S754_finite true 6305039478318694 (-50); S754_finite true 6305039478318694 (-50)].
Proof. vm_compute. reflexivity. Qed.

Example demo_particles_narrowed :
  pdf_input demo_particles
  = mkTensor float32 [1; 2]
      [S754_finite true 11744051 (-21); S754_finite true 11744051 (-21)].
Proof. vm_compute. reflexivity. Qed.


(** An update step that moves every coordinate by one. *)
Definition demo_step (t : Tensor Q) : Tensor Q :=
  mkTensor (dtype t) (shape t) (map (fun v => Qred (v + 1)%Q) (flat t)).

Definition demo_start : Tensor Q := mkTensor float64 [1; 2] [0%Q; 0%Q].

Example two_frames_replacing :
  offsets (draw_frames (SVGD_init (fun _ _ _ => update_replacing demo_step) rbf
                          (fun t => Some t) 0%Q) 0 [0; 1]
             (mkPlot [demo_start] None (Some demo_start) None []))
  = Some (mkTensor float64 [1; 2] [5%Q; 5%Q]).
Proof. reflexivity. Qed.

Example two_frames_in_place :
  offsets (draw_frames (SVGD_init (fun _ _ _ => update_in_place demo_step) rbf
                          (fun t => Some t) 0%Q) 0 [0; 1]
             (mkPlot [demo_start] None (Some demo_start) None []))
  = Some (mkTensor float64 [1; 2] [10%Q; 10%Q]).
Proof. reflexivity. Qed.






(** The object built by the configuration cell evaluates the mixture's
    density: its target is [gauss.pdf]. *)
Lemma svgd_target_is_pdf {F} {A : Arith F} {E : External F}
  (method : @UpdateMethod F) (gm : @GaussianMixture F) :
  targetDistribution (svgd method gm) = pdf gm /\ kernel (svgd method gm) = RbfKernel.
Proof.
  split; reflexivity.
Qed.
